(** * koa-react-ssr-example: the comment routes and the Boom error renderer

    A shallow embedding of [server/router.js] and [server/ssr.js].

    A Koa handler is an [async ctx => ...] function that mutates the request
    context.  Here a handler is a state transformer over [Ctx] that either
    returns or throws; the context reached at a [throw] is kept, because the
    assignments made before it stay visible on the session object. *)

From Stdlib Require Import ZArith String List Floats.SpecFloat.
From stdpp Require Import base option gmap strings list fin_maps.
From stdpp Require Import sorting.
From Stdlib Require Import Ascii NArith.

Open Scope string_scope.
Open Scope Z_scope.

(** ** JavaScript values *)

(** The values a parsed request body can hold.  Numbers are IEEE doubles. *)
#[warnings="-register-all"]
Inductive JsValue : Type :=
| JsUndefined
| JsNull
| JsBool (b : bool)
| JsNumber (x : spec_float)
| JsString (s : string)
| JsArray (items : list JsValue)
| JsObject (fields : list (string * JsValue)).

(** ECMAScript [ToBoolean], which [!v] and [v || w] apply to [v]. *)
Definition ToBoolean (v : JsValue) : bool :=
  match v with
  | JsUndefined | JsNull => false
  | JsBool b => b
  | JsNumber (S754_zero _) | JsNumber S754_nan => false
  | JsNumber _ => true
  | JsString s => negb (String.eqb s EmptyString)
  | JsArray _ | JsObject _ => true
  end.

(** Milliseconds since the epoch, the value a [Date] wraps. *)
Definition Time : Type := Z.

(** ** Data model *)

(** The object literal [{ date, comment }] built by the POST handler. *)
Record Comment : Type := mkComment {
  date : Time;
  comment : JsValue
}.

(** [ctx.session]: the only field the routes touch is [comments], which is
    absent ([undefined]) until a handler assigns an array to it. *)
Record Session : Type := mkSession {
  comments : option (list Comment)
}.

(** [ctx.session.comments || []]: an array is truthy even when empty, so the
    right operand is taken only when the field is absent. *)
Definition comments_or_empty (s : Session) : list Comment :=
  match comments s with
  | Some l => l
  | None => []
  end.

(** Values handed to a page as props. *)
Inductive PropValue : Type :=
| PropUndefined
| PropNumber (n : Z)
| PropString (s : string)
| PropComments (l : list Comment).

Record RenderOptions : Type := mkRenderOptions {
  staticMarkup : bool
}.

Definition Html : Type := string.

(** What a handler can assign to [ctx.body]. *)
Inductive BodyValue : Type :=
| BodyHtml (html : Html)
| BodyComments (l : list Comment)
| BodyComment (c : Comment).

(** ** Errors *)

(** [err.output.payload] of a Boom error.  A field can be missing. *)
Record Payload : Type := mkPayload {
  statusCode : option Z;
  error : option string;
  message : option string
}.

Record Output : Type := mkOutput {
  payload : option Payload
}.

(** A thrown error object: its own [name], [message] and [stack], and the
    [output] that only Boom errors carry. *)
Record JsError : Type := mkJsError {
  err_name : string;
  err_message : string;
  err_stack : string;
  output : option Output
}.

Module Boom.

(** [Boom.badData(message)]: status 422, label "Unprocessable Entity". *)
Definition badData (msg : string) : JsError :=
  {| err_name := "Error";
     err_message := msg;
     err_stack := EmptyString;
     output := Some {| payload := Some {| statusCode := Some 422;
                                          error := Some "Unprocessable Entity";
                                          message := Some msg |} |} |}.

End Boom.

Definition TypeError (msg : string) : JsError :=
  {| err_name := "TypeError"; err_message := msg; err_stack := EmptyString; output := None |}.

Definition AssertionError (msg : string) : JsError :=
  {| err_name := "AssertionError"; err_message := msg; err_stack := EmptyString; output := None |}.

(** ** The Koa context *)

Record Ctx : Type := mkCtx {
  session : Session;
  request_body : gmap string JsValue;
  status : Z;
  explicitStatus : bool;
  body : option BodyValue
}.

(** A context as Koa creates it for a request: status 404, nothing sent. *)
Definition new_ctx (s : Session) (reqbody : gmap string JsValue) : Ctx :=
  {| session := s; request_body := reqbody;
     status := 404; explicitStatus := false; body := None |}.

Inductive Outcome (A : Type) : Type :=
| Returned (a : A)
| Threw (e : JsError).
Arguments Returned {A} a.
Arguments Threw {A} e.

Definition Action (A : Type) : Type := Ctx -> Outcome A * Ctx.

#[global] Instance Action_ret : MRet Action :=
  fun A a ctx => (Returned a, ctx).

#[global] Instance Action_bind : MBind Action :=
  fun A B f m ctx =>
    match m ctx with
    | (Returned a, ctx') => f a ctx'
    | (Threw e, ctx') => (Threw e, ctx')
    end.

#[global] Instance Action_throw : MThrow JsError Action :=
  fun A e ctx => (Threw e, ctx).

Definition get_ctx : Action Ctx := fun ctx => (Returned ctx, ctx).

(** The context after [ctx.session.comments = ...] has rebuilt the session. *)
Definition with_session (s : Session) (ctx : Ctx) : Ctx :=
  {| session := s; request_body := request_body ctx;
     status := status ctx; explicitStatus := explicitStatus ctx;
     body := body ctx |}.

Definition set_session (s : Session) : Action unit :=
  fun ctx => (Returned tt, with_session s ctx).

(** Status codes whose response has no body. *)
Definition empty_status (code : Z) : bool :=
  (code =? 204) || (code =? 205) || (code =? 304).

(** Koa's [ctx.status = code]: the code is asserted to lie in 100..999, the
    status becomes explicit, and a body is dropped for an empty status. *)
Definition set_status (code : Z) : Action unit :=
  fun ctx =>
    if (100 <=? code) && (code <=? 999) then
      (Returned tt,
       {| session := session ctx; request_body := request_body ctx;
          status := code; explicitStatus := true;
          body := if empty_status code then None else body ctx |})
    else (Threw (AssertionError "invalid status code"), ctx).

(** Koa's [ctx.body = val] for a non-null [val]: the status becomes 200
    unless one was assigned before. *)
Definition set_body (v : BodyValue) : Action unit :=
  fun ctx =>
    (Returned tt,
     {| session := session ctx; request_body := request_body ctx;
        status := if explicitStatus ctx then status ctx else 200;
        explicitStatus := true;
        body := Some v |}).

(** [ctx.request.body["comment"]]: a missing key reads as [undefined]. *)
Definition body_field (key : string) (ctx : Ctx) : JsValue :=
  match request_body ctx !! key with
  | Some v => v
  | None => JsUndefined
  end.

(** [ctx.session.comments.push(c)]: appends in place; on a session without
    the field the property access throws. *)
Definition push_comment (c : Comment) : Action unit :=
  ctx ← get_ctx;
  match comments (session ctx) with
  | Some l => set_session {| comments := Some (l ++ [c])%list |}
  | None => mthrow (TypeError "Cannot read property 'push' of undefined")
  end.

(** ** Rendering ([server/ssr.js]) *)

Section Server.

(** [nextEngine.renderToHTML(req, res, path, props, options)]: the Next.js
    renderer, taken as given and as returning its page; a render that
    rejects is not modelled.  The request and response it also receives
    carry nothing the routes set. *)
Variable renderToHTML :
  string -> gmap string PropValue -> option RenderOptions -> Html.

(** [ctx.render({ screen, props = {}, options })] *)
Definition render (screen : string) (props : option (gmap string PropValue))
    (options : option RenderOptions) : Action Html :=
  let html := renderToHTML ("/" +:+ screen) (default ∅ props) options in
  set_body (BodyHtml html);;
  mret html.

(** [payload.statusCode || 500]: a missing code and the number 0 are falsy. *)
Definition statusCode_or_500 (p : Payload) : Z :=
  match statusCode p with
  | Some c => if c =? 0 then 500 else c
  | None => 500
  end.

Definition prop_of_number (o : option Z) : PropValue :=
  match o with Some n => PropNumber n | None => PropUndefined end.

Definition prop_of_string (o : option string) : PropValue :=
  match o with Some s => PropString s | None => PropUndefined end.

(** The [props] object literal of [renderBoomError]. *)
Definition error_props (p : Payload) : gmap string PropValue :=
  {[ "statusCode" := prop_of_number (statusCode p);
     "error" := prop_of_string (error p);
     "message" := prop_of_string (message p) ]}.

(** [ctx.renderBoomError(err)].  The destructuring
    [const { output: { payload } } = err] throws when [err.output] is
    missing, and reading [payload.statusCode] throws when the payload is. *)
Definition renderBoomError (err : JsError) : Action Html :=
  match output err with
  | None => mthrow (TypeError "Cannot destructure property 'payload' of undefined")
  | Some out =>
    match payload out with
    | None => mthrow (TypeError "Cannot read property 'statusCode' of undefined")
    | Some p =>
      set_status (statusCode_or_500 p);;
      ctx ← get_ctx;
      render (if 500 <=? status ctx then "errors/500" else "errors/400")
             (Some (error_props p))
             (Some {| staticMarkup := true |})
    end
  end.

(** ** Routes ([server/router.js]) *)

(** [router.get("/")] *)
Definition get_home : Action unit :=
  render "Home" None None;;
  mret tt.

(** [router.get("/comments")] *)
Definition get_comments : Action unit :=
  ctx ← get_ctx;
  let comments := comments_or_empty (session ctx) in
  render "Comments" (Some {[ "comments" := PropComments comments ]}) None;;
  mret tt.

(** [router.get("/api/comments")] *)
Definition get_api_comments : Action unit :=
  ctx ← get_ctx;
  set_session {| comments := Some (comments_or_empty (session ctx)) |};;
  ctx ← get_ctx;
  set_body (BodyComments (comments_or_empty (session ctx))).

(** [router.post("/api/comments")]; [now] is what [new Date()] reads. *)
Definition post_api_comments (now : Time) : Action unit :=
  ctx ← get_ctx;
  set_session {| comments := Some (comments_or_empty (session ctx)) |};;
  ctx ← get_ctx;
  if negb (ToBoolean (body_field "comment" ctx)) then
    mthrow (Boom.badData "Empty comments not allowed")
  else
    let comment := {| date := now; comment := body_field "comment" ctx |} in
    push_comment comment;;
    set_status 201;;
    set_body (BodyComment comment).

(** The request methods: the two the routes are registered for, [HEAD],
    which the router serves through the GET routes, and any other. *)
Inductive Method : Type := GET | HEAD | POST | OTHER.

(** An ASCII capital as its small letter, any other character as it is. *)
Definition to_lower (c : ascii) : ascii :=
  let n := N_of_ascii c in
  if ((65 <=? n) && (n <=? 90))%N then ascii_of_N (n + 32) else c.

Fixpoint lowercase (s : string) : string :=
  match s with
  | EmptyString => EmptyString
  | String c s' => String (to_lower c) (lowercase s')
  end.

(** A route given as a literal path without its closing slash, matched as
    the router does with its default options: letters in either case
    ([sensitive: false]) and one closing slash allowed ([strict: false]). *)
Definition route_matches (route path : string) : bool :=
  String.eqb (lowercase path) (lowercase route)
  || String.eqb (lowercase path) (lowercase route +:+ "/").

(** The route table of [createRouter]: the handler registered for a method
    and path, if any.  The route ["/"] is the empty literal with its closing
    slash. *)
Definition router (now : Time) (m : Method) (path : string) : option (Action unit) :=
  match m with
  | GET | HEAD =>
    if route_matches EmptyString path then Some get_home
    else if route_matches "/comments" path then Some get_comments
    else if route_matches "/api/comments" path then Some get_api_comments
    else None
  | POST =>
    if route_matches "/api/comments" path then Some (post_api_comments now)
    else None
  | OTHER => None
  end.

End Server.

(** ** The error boundary *)

(** The payload of an error that carries all of [statusCode], [error] and
    [message]: a structured HTTP error. *)
Definition structured_payload (err : JsError) : option Payload :=
  out ← output err;
  p ← payload out;
  match statusCode p, error p, message p with
  | Some _, Some _, Some _ => Some p
  | _, _, _ => None
  end.

(** The error that stands for an unexpected one: status 500 with a label
    and a message that are fixed beforehand. *)
Definition generic_error (label generic : string) : JsError :=
  {| err_name := "Error";
     err_message := generic;
     err_stack := EmptyString;
     output := Some {| payload := Some {| statusCode := Some 500;
                                          error := Some label;
                                          message := Some generic |} |} |}.

(** Modelled from the spec: the boundary of [server/app.js], which is not
    under [server/] here, and its treatment of an unexpected error.
    Sections 4.4 and 7 say that every error a handler throws is passed to
    the error translator once, that a structured error goes through
    unchanged, and that an unstructured one is treated as a 500 with a
    generic message.  The label and the message of that 500 are not given
    by the spec and are left open. *)
Definition translate
    (renderToHTML : string -> gmap string PropValue -> option RenderOptions -> Html)
    (label generic : string) (err : JsError) : Action Html :=
  match structured_payload err with
  | Some _ => renderBoomError renderToHTML err
  | None => renderBoomError renderToHTML (generic_error label generic)
  end.

(** ** Reading a response *)

(** The status carried by the payload of a thrown error, if it has one. *)
Definition payload_status (e : JsError) : option Z :=
  out ← output e; p ← payload out; statusCode p.

(** A structured client error: the payload's status is in the 400 class. *)
Definition is_client_error (e : JsError) : bool :=
  match payload_status e with
  | Some c => (400 <=? c) && (c <? 500)
  | None => false
  end.

(** The comment sequence a later request of the same session lists. *)
Definition listed (ctx : Ctx) : list Comment := comments_or_empty (session ctx).

(** ** Sessions *)

Definition Token : Type := string.

Definition empty_session : Session := {| comments := None |}.

(** Modelled from the spec: the session backend, which is not under
    [server/] here (the session middleware is a library wired in the missing
    [server/app.js]).  Section 9 gives it as [get(token) -> SessionData] and
    [set(token, SessionData)], section 3 says a session is created lazily on
    first access, and a handler only ever sees the session of the request's
    own token. *)
Definition get_session (store : gmap Token Session) (t : Token) : Session :=
  default empty_session (store !! t).

Record Request : Type := mkRequest {
  token : Token;
  method : Method;
  path : string;
  req_body : gmap string JsValue;
  clock : Time
}.

(** Modelled from the spec: one request served against the session store.
    The route handler runs on a new context holding the caller's session,
    and the session it leaves, also when it throws, is stored back under
    the caller's token.  A request no route matches leaves the store as it
    is. *)
Definition handle (renderToHTML : string -> gmap string PropValue -> option RenderOptions -> Html)
    (store : gmap Token Session) (r : Request)
    : option (Outcome unit * Ctx) * gmap Token Session :=
  match router renderToHTML (clock r) (method r) (path r) with
  | Some h =>
    let res := h (new_ctx (get_session store (token r)) (req_body r)) in
    (Some res, <[token r := session (snd res)]> store)
  | None => (None, store)
  end.

(** A sequence of requests served one after the other. *)
Fixpoint handle_all (renderToHTML : string -> gmap string PropValue -> option RenderOptions -> Html)
    (store : gmap Token Session) (rs : list Request) : gmap Token Session :=
  match rs with
  | [] => store
  | r :: rs' => handle_all renderToHTML (snd (handle renderToHTML store r)) rs'
  end.

(** ** Readings of the stored comments *)

(** The comments stored for a token. *)
Definition stored (store : gmap Token Session) (t : Token) : list Comment :=
  comments_or_empty (get_session store t).

(** No comment is dated before one listed ahead of it. *)
Definition in_date_order (l : list Comment) : Prop :=
  StronglySorted (fun a b => date a <= date b) l.

(** The comments of every token are in date order and none is dated after
    [bound]. *)
Definition dated_up_to (bound : Time) (store : gmap Token Session) : Prop :=
  forall t, in_date_order (stored store t)
            /\ Forall (fun c => date c <= bound) (stored store t).

(** The requests are served at clock readings that never go back, starting
    no earlier than [bound]. *)
Fixpoint clocks_from (bound : Time) (rs : list Request) : Prop :=
  match rs with
  | [] => True
  | r :: rs' => bound <= clock r /\ clocks_from (clock r) rs'
  end.

(** ** The Comments page ([pages/Comments.js]) *)

(** [new Error(msg)] *)
Definition Error (msg : string) : JsError :=
  {| err_name := "Error"; err_message := msg; err_stack := EmptyString; output := None |}.

Module CommentsScreen.

(** What a response carries as [data]: the body the server sent.  The page
    keeps it as it comes. *)
Definition Data : Type := option BodyValue.

(** [this.state] *)
Record State : Type := mkState {
  comments : Data;
  text : string;
  loading : bool;
  error : option JsError
}.

Section Handlers.

Context {World : Type}.

(** [API.post(url, data)] and [API.get(url)]: a call resolves with the
    response data or rejects with an error, and changes the world it talks
    to. *)
Variable api_post : string -> gmap string JsValue -> World -> Outcome Data * World.
Variable api_get : string -> World -> Outcome Data * World.

(** An event handler of the component: it runs on the component state and
    the world behind the API, and returns or throws. *)
Definition Handler (A : Type) : Type := State * World -> Outcome A * (State * World).

#[global] Instance Handler_ret : MRet Handler :=
  fun A a s => (Returned a, s).

#[global] Instance Handler_bind : MBind Handler :=
  fun A B f m s =>
    match m s with
    | (Returned a, s') => f a s'
    | (Threw e, s') => (Threw e, s')
    end.

#[global] Instance Handler_throw : MThrow JsError Handler :=
  fun A e s => (Threw e, s).

Definition get_state : Handler State := fun s => (Returned (fst s), s).


(** [this.setState(update)], the update given as the state it leads to.
    The render that follows an update is not run here: what is proved of a
    handler that stores new comments is stated for states that render. *)
Definition setState (update : State -> State) : Handler unit :=
  fun s => (Returned tt, (update (fst s), snd s)).

(** [await call]: a rejected promise is thrown at the [await]. *)
Definition await {A : Type} (call : World -> Outcome A * World) : Handler A :=
  fun s => let (r, w) := call (snd s) in (r, (fst s, w)).

(** [try { body } catch (err) { handler } finally { cleanup }]: the cleanup
    runs on every way out, and an error thrown by the handler is thrown on
    after it unless the cleanup throws itself. *)
Definition try_catch_finally (body : Handler unit) (handler : JsError -> Handler unit)
    (cleanup : Handler unit) : Handler unit :=
  fun s =>
    match body s with
    | (Returned _, s1) => cleanup s1
    | (Threw e, s1) =>
      match handler e s1 with
      | (Returned _, s2) => cleanup s2
      | (Threw e', s2) =>
        match cleanup s2 with
        | (Returned _, s3) => (Threw e', s3)
        | (Threw e'', s3) => (Threw e'', s3)
        end
      end
    end.


(** [handleSubmit].  The text is a string, so [!this.state.text] holds for
    the empty one only; it is not touched by the [setState] before it, so it
    reads the same whether or not that update has been applied yet. *)
Definition handleSubmit : Handler unit :=
  setState (fun st => {| comments := comments st; text := text st;
                         loading := true; error := None |});;
  try_catch_finally
    (st ← get_state;
     if String.eqb (text st) EmptyString then
       mthrow (Error "Empty comment not allowed")
     else
       await (api_post "/api/comments" {[ "comment" := JsString (text st) ]});;
       data ← await (api_get "/api/comments");
       setState (fun st => {| comments := data; text := EmptyString;
                              loading := loading st; error := None |}))
    (fun err =>
       setState (fun st => {| comments := comments st; text := text st;
                              loading := loading st; error := Some err |}))
    (setState (fun st => {| comments := comments st; text := text st;
                            loading := false; error := error st |})).

End Handlers.

End CommentsScreen.

(** ** The API client ([utils/api-client.js]) against the routes *)

Section Client.

Variable renderToHTML :
  string -> gmap string PropValue -> option RenderOptions -> Html.

(** The clock reading of the server while the page's calls are served. *)
Variable now : Time.

(** The error a call is rejected with, from the error the route threw, if
    it threw, and the context it left.  The answer to a thrown error is made
    by the boundary of [server/app.js], which is not under [server/] here,
    so the rejection is left open. *)
Variable rejected : option JsError -> Ctx -> JsError.

(** A call of the client, whose base URL is ["/"], served by the route
    table on the caller's session.  The client resolves an answer with a
    2xx status to its body and rejects every other answer. *)
Definition request (m : Method) (path : string) (data : gmap string JsValue)
    (s : Session) : Outcome CommentsScreen.Data * Session :=
  match router renderToHTML now m path with
  | Some h =>
    match h (new_ctx s data) with
    | (Returned _, ctx) =>
      if (200 <=? status ctx) && (status ctx <? 300)
      then (Returned (body ctx), session ctx)
      else (Threw (rejected None ctx), session ctx)
    | (Threw e, ctx) => (Threw (rejected (Some e) ctx), session ctx)
    end
  | None => (Threw (rejected None (new_ctx s data)), s)
  end.

Definition API_post (path : string) (data : gmap string JsValue)
    : Session -> Outcome CommentsScreen.Data * Session :=
  request POST path data.

Definition API_get (path : string) : Session -> Outcome CommentsScreen.Data * Session :=
  request GET path ∅.

End Client.


(** A renderer to run the routes with: a page that shows only its path. *)
Definition path_page (path : string) (props : gmap string PropValue)
    (options : option RenderOptions) : Html := path.

(** * Properties *)

Section Properties.

Variable renderToHTML :
  string -> gmap string PropValue -> option RenderOptions -> Html.

(** ** Equations of the handlers *)

Ltac run_action :=
  unfold mbind, mret, mthrow, Action_bind, Action_ret, Action_throw,
    get_ctx, set_session, set_body, set_status; simpl.

(** The comment is rejected: the session field has been assigned, then the
    Boom error is thrown. *)
Lemma post_api_comments_falsy (now : Time) (ctx : Ctx) :
  ToBoolean (body_field "comment" ctx) = false ->
  post_api_comments now ctx =
    (Threw (Boom.badData "Empty comments not allowed"),
     with_session {| comments := Some (listed ctx) |} ctx).
Proof.
  intros Hfalsy. unfold post_api_comments. run_action.
  change (body_field "comment" (with_session _ ctx)) with (body_field "comment" ctx).
  now rewrite Hfalsy.
Qed.

(** The comment is accepted: it goes to the end of the array, the status is
    201 and the body is the new comment. *)
Lemma post_api_comments_truthy (now : Time) (ctx : Ctx) :
  ToBoolean (body_field "comment" ctx) = true ->
  post_api_comments now ctx =
    (Returned tt,
     {| session := {| comments :=
          Some (listed ctx ++ [ {| date := now; comment := body_field "comment" ctx |} ])%list |};
        request_body := request_body ctx;
        status := 201; explicitStatus := true;
        body := Some (BodyComment {| date := now; comment := body_field "comment" ctx |}) |}).
Proof.
  intros Htruthy. unfold post_api_comments. run_action.
  change (body_field "comment" (with_session _ ctx)) with (body_field "comment" ctx).
  rewrite Htruthy. simpl. unfold push_comment. run_action. reflexivity.
Qed.

Lemma get_api_comments_eq (ctx : Ctx) :
  get_api_comments ctx =
    (Returned tt,
     {| session := {| comments := Some (listed ctx) |};
        request_body := request_body ctx;
        status := if explicitStatus ctx then status ctx else 200;
        explicitStatus := true;
        body := Some (BodyComments (listed ctx)) |}).
Proof. unfold get_api_comments. run_action. reflexivity. Qed.

Lemma ToBoolean_string (s : string) : s <> EmptyString -> ToBoolean (JsString s) = true.
Proof.
  intros Hs. simpl. destruct (String.eqb_spec s EmptyString); [contradiction | reflexivity].
Qed.

Lemma listed_new_ctx (s : Session) (b : gmap string JsValue) :
  listed (new_ctx s b) = comments_or_empty s.
Proof. reflexivity. Qed.

(** ** The comment routes *)

(** C1, as amended: for every session, a POST whose comment is the empty
    string is rejected with the structured 422 error and the listed
    sequence stays as it was, while the whitespace-only comment "   " is
    truthy and is appended with status 201 like any other text. *)
Theorem append_empty_rejected_blank_accepted
    (now : Time) (sess : Session) (b : gmap string JsValue) :
  let empty := post_api_comments now (new_ctx sess (<["comment" := JsString EmptyString]> b)) in
  let blank := post_api_comments now (new_ctx sess (<["comment" := JsString "   "]> b)) in
  (fst empty = Threw (Boom.badData "Empty comments not allowed")
   /\ is_client_error (Boom.badData "Empty comments not allowed") = true
   /\ payload_status (Boom.badData "Empty comments not allowed") = Some 422
   /\ listed (snd empty) = comments_or_empty sess)
  /\ (fst blank = Returned tt
      /\ status (snd blank) = 201
      /\ listed (snd blank) =
           (comments_or_empty sess ++ [ {| date := now; comment := JsString "   " |} ])%list).
Proof.
  intros empty blank. subst empty blank. split.
  - rewrite post_api_comments_falsy.
    + repeat split; reflexivity.
    + unfold body_field, new_ctx; simpl. now rewrite lookup_insert_eq.
  - rewrite post_api_comments_truthy.
    + unfold body_field, new_ctx, listed; simpl. rewrite lookup_insert_eq.
      repeat split; reflexivity.
    + unfold body_field, new_ctx; simpl. now rewrite lookup_insert_eq.
Qed.

(** C3: for every session and every non-empty string [s], the POST
    succeeds with status 201 and the created comment as its body, and the
    listing that follows ends with a comment whose text is [s] and whose
    date is the reading of the clock taken during the call, hence not
    before any earlier reading.  A date is always set: the field is a
    timestamp, not an optional one. *)
Theorem append_then_list_ends_with_comment
    (now : Time) (sess : Session) (b b' : gmap string JsValue) (s : string) :
  s <> EmptyString ->
  let posted := post_api_comments now (new_ctx sess (<["comment" := JsString s]> b)) in
  let got := get_api_comments (new_ctx (session (snd posted)) b') in
  fst posted = Returned tt
  /\ status (snd posted) = 201
  /\ body (snd posted) = Some (BodyComment {| date := now; comment := JsString s |})
  /\ fst got = Returned tt
  /\ exists l c,
       body (snd got) = Some (BodyComments l)
       /\ last l = Some c
       /\ comment c = JsString s
       /\ forall before : Time, before <= now -> before <= date c.
Proof.
  intros Hs posted got. subst posted got.
  rewrite post_api_comments_truthy, get_api_comments_eq.
  - unfold body_field, new_ctx, listed, comments_or_empty; simpl.
    rewrite lookup_insert_eq. repeat split; try reflexivity.
    eexists _, {| date := now; comment := JsString s |}.
    split; [reflexivity |]. split; [apply last_snoc |].
    split; [reflexivity | simpl; auto].
  - unfold body_field, new_ctx; simpl. rewrite lookup_insert_eq.
    now apply ToBoolean_string.
Qed.

(** C4: two accepted POSTs, [a] then [b], extend the listed sequence by
    exactly [a; b] in that order; what was listed before stays in front,
    in its order.  On a session with no comments the listing is [a; b]. *)
Theorem append_preserves_order
    (t1 t2 : Time) (sess : Session) (b1 b2 b3 : gmap string JsValue) (a b : JsValue) :
  ToBoolean a = true ->
  ToBoolean b = true ->
  let ca := {| date := t1; comment := a |} in
  let cb := {| date := t2; comment := b |} in
  let first := post_api_comments t1 (new_ctx sess (<["comment" := a]> b1)) in
  let second :=
    post_api_comments t2 (new_ctx (session (snd first)) (<["comment" := b]> b2)) in
  let got := get_api_comments (new_ctx (session (snd second)) b3) in
  listed (snd first) = (comments_or_empty sess ++ [ca])%list
  /\ fst got = Returned tt
  /\ body (snd got) = Some (BodyComments (comments_or_empty sess ++ [ca; cb])%list)
  /\ (comments_or_empty sess = [] -> body (snd got) = Some (BodyComments [ca; cb])).
Proof.
  intros Ha Hb ca cb first second got.
  assert (Hfirst : first =
    (Returned tt,
     {| session := {| comments := Some (comments_or_empty sess ++ [ca])%list |};
        request_body := <["comment" := a]> b1;
        status := 201; explicitStatus := true;
        body := Some (BodyComment ca) |})).
  { subst first. rewrite post_api_comments_truthy.
    - unfold body_field, new_ctx, listed; simpl. now rewrite lookup_insert_eq.
    - unfold body_field, new_ctx; simpl. now rewrite lookup_insert_eq. }
  assert (Hsecond : listed (snd second) = (comments_or_empty sess ++ [ca; cb])%list
                    /\ session (snd second) =
                       {| comments := Some (comments_or_empty sess ++ [ca; cb])%list |}).
  { subst second. rewrite Hfirst. simpl. rewrite post_api_comments_truthy.
    - unfold body_field, new_ctx, listed, comments_or_empty; simpl.
      rewrite lookup_insert_eq, <- app_assoc. now split.
    - unfold body_field, new_ctx; simpl. now rewrite lookup_insert_eq. }
  destruct Hsecond as [Hlisted Hsess].
  assert (Hgot : body (snd got) =
                 Some (BodyComments (comments_or_empty sess ++ [ca; cb])%list)).
  { subst got. rewrite get_api_comments_eq. simpl.
    now rewrite listed_new_ctx, Hsess. }
  split; [now rewrite Hfirst |].
  split; [subst got; now rewrite get_api_comments_eq |].
  split; [exact Hgot |].
  intros Hnil. rewrite Hgot, Hnil. reflexivity.
Qed.

(** C5: listing never fails.  On every context both [GET /api/comments]
    and [GET /comments] return; the first answers the session's sequence
    and the second hands it to the Comments page; on a session without
    the [comments] field that sequence is the empty one. *)
Theorem list_never_fails (ctx : Ctx) :
  let got := get_api_comments ctx in
  let view := get_comments renderToHTML ctx in
  let got0 := get_api_comments (with_session empty_session ctx) in
  let view0 := get_comments renderToHTML (with_session empty_session ctx) in
  fst got = Returned tt
  /\ body (snd got) = Some (BodyComments (listed ctx))
  /\ fst view = Returned tt
  /\ body (snd view) =
       Some (BodyHtml (renderToHTML "/Comments"
                         {[ "comments" := PropComments (listed ctx) ]} None))
  /\ fst got0 = Returned tt
  /\ body (snd got0) = Some (BodyComments [])
  /\ fst view0 = Returned tt
  /\ body (snd view0) =
       Some (BodyHtml (renderToHTML "/Comments" {[ "comments" := PropComments [] ]} None)).
Proof.
  intros got view got0 view0. subst got view got0 view0.
  rewrite !get_api_comments_eq.
  unfold get_comments, render. run_action.
  repeat split; reflexivity.
Qed.

(** C6: on the context of a new request, [GET /api/comments] returns,
    the status is 200, the body is the session's whole sequence in order,
    and the only change to the session is that an absent [comments] field
    now holds the empty sequence. *)
Theorem get_api_comments_lists_and_initialises
    (sess : Session) (b : gmap string JsValue) :
  let got := get_api_comments (new_ctx sess b) in
  fst got = Returned tt
  /\ status (snd got) = 200
  /\ body (snd got) = Some (BodyComments (comments_or_empty sess))
  /\ request_body (snd got) = b
  /\ session (snd got) =
       match comments sess with
       | Some _ => sess
       | None => {| comments := Some [] |}
       end.
Proof.
  intros got. subst got. rewrite get_api_comments_eq.
  unfold listed, comments_or_empty, new_ctx; simpl.
  repeat split; try reflexivity.
  destruct sess as [[l |]]; reflexivity.
Qed.

(** C9: a POST whose [comment] field is missing or falsy first assigns the
    session's [comments] field and only then throws the Boom error.  The
    context at the throw differs from the one the request came with in
    that field alone, so a session that lacked the field now has it, as
    the empty sequence, and still lists nothing. *)
Theorem rejected_post_initialises_comments (now : Time) (ctx : Ctx) :
  ToBoolean (body_field "comment" ctx) = false ->
  let posted := post_api_comments now ctx in
  fst posted = Threw (Boom.badData "Empty comments not allowed")
  /\ snd posted = with_session {| comments := Some (listed ctx) |} ctx
  /\ (comments (session ctx) = None ->
      comments (session (snd posted)) = Some [] /\ listed (snd posted) = []).
Proof.
  intros Hfalsy posted. subst posted.
  rewrite post_api_comments_falsy by assumption. simpl.
  split; [reflexivity |]. split; [reflexivity |].
  intros Habsent. unfold listed, comments_or_empty. simpl.
  rewrite Habsent. now split.
Qed.

(** C10: [GET /comments] only reads the session.  It renders the Comments
    page with the session's sequence, the empty one when the field is
    absent, as the [comments] prop, and leaves the session as it found
    it: a session without the field is still without it afterwards. *)
Theorem get_comments_reads_only (ctx : Ctx) :
  let view := get_comments renderToHTML ctx in
  let view0 := get_comments renderToHTML (with_session empty_session ctx) in
  fst view = Returned tt
  /\ session (snd view) = session ctx
  /\ request_body (snd view) = request_body ctx
  /\ body (snd view) =
       Some (BodyHtml (renderToHTML "/Comments"
                         {[ "comments" := PropComments (comments_or_empty (session ctx)) ]}
                         None))
  /\ comments (session (snd view0)) = None.
Proof.
  intros view view0. subst view view0. unfold get_comments, render. run_action.
  repeat split; reflexivity.
Qed.

(** ** The error renderer *)

(** On an error with a payload whose status Koa accepts, the renderer
    returns the page it rendered from the payload. *)
Lemma renderBoomError_payload (err : JsError) (out : Output) (p : Payload) (ctx : Ctx) :
  output err = Some out ->
  payload out = Some p ->
  100 <= statusCode_or_500 p <= 999 ->
  let html :=
    renderToHTML
      ("/" +:+ (if 500 <=? statusCode_or_500 p then "errors/500" else "errors/400"))
      (error_props p) (Some {| staticMarkup := true |}) in
  renderBoomError renderToHTML err ctx =
    (Returned html,
     {| session := session ctx; request_body := request_body ctx;
        status := statusCode_or_500 p; explicitStatus := true;
        body := Some (BodyHtml html) |}).
Proof.
  intros Hout Hpay [Hlo Hhi] html. subst html.
  unfold renderBoomError. rewrite Hout, Hpay. unfold render. run_action.
  apply Z.leb_le in Hlo. apply Z.leb_le in Hhi. rewrite Hlo, Hhi. simpl.
  reflexivity.
Qed.

(** C7: for an error whose payload carries [statusCode], [error] and
    [message], with the code a status Koa accepts (100..999, which covers
    every standard HTTP status), the renderer sets the response status to
    that code, renders the server-error page [errors/500] exactly when the
    code is at least 500 and the client-error page [errors/400] otherwise,
    and passes the three fields as the page's props. *)
Theorem renderBoomError_structured
    (err : JsError) (out : Output) (c : Z) (e m : string) (ctx : Ctx) :
  output err = Some out ->
  payload out = Some {| statusCode := Some c; error := Some e; message := Some m |} ->
  100 <= c <= 999 ->
  let rendered := renderBoomError renderToHTML err ctx in
  let page := if 500 <=? c then "/errors/500" else "/errors/400" in
  let props : gmap string PropValue :=
    {[ "statusCode" := PropNumber c; "error" := PropString e; "message" := PropString m ]} in
  let html := renderToHTML page props (Some {| staticMarkup := true |}) in
  fst rendered = Returned html
  /\ status (snd rendered) = c
  /\ body (snd rendered) = Some (BodyHtml html)
  /\ session (snd rendered) = session ctx
  /\ (500 <= c -> page = "/errors/500")
  /\ (c < 500 -> page = "/errors/400").
Proof.
  intros Hout Hpay Hrange rendered page props html.
  assert (Hcode : statusCode_or_500
            {| statusCode := Some c; error := Some e; message := Some m |} = c).
  { unfold statusCode_or_500; simpl. destruct (Z.eqb_spec c 0); [lia | reflexivity]. }
  subst rendered.
  rewrite (renderBoomError_payload err out _ ctx Hout Hpay) by (rewrite Hcode; exact Hrange).
  rewrite Hcode. simpl.
  assert (Hpage : "/" +:+ (if 500 <=? c then "errors/500" else "errors/400") = page).
  { subst page. destruct (500 <=? c); reflexivity. }
  rewrite Hpage.
  repeat split; try reflexivity.
  - intros Hge. subst page. apply Z.leb_le in Hge. now rewrite Hge.
  - intros Hlt. subst page. apply Z.leb_gt in Hlt. now rewrite Hlt.
Qed.

(** C2: an error that carries no structured HTTP payload is answered by
    the boundary with status 500 and the server-error page, rendered from
    the generic label and message alone.  Nothing of the error goes into
    the page: every unstructured error, whatever its own message and stack,
    gets the very same response.  The boundary itself is modelled from the
    spec. *)
Theorem translate_unstructured
    (label generic : string) (err : JsError) (ctx : Ctx) :
  structured_payload err = None ->
  let translated := translate renderToHTML label generic err ctx in
  let props : gmap string PropValue :=
    {[ "statusCode" := PropNumber 500;
       "error" := PropString label;
       "message" := PropString generic ]} in
  let html := renderToHTML "/errors/500" props (Some {| staticMarkup := true |}) in
  fst translated = Returned html
  /\ status (snd translated) = 500
  /\ 500 <= status (snd translated) <= 599
  /\ body (snd translated) = Some (BodyHtml html)
  /\ (forall err' : JsError,
        structured_payload err' = None ->
        translate renderToHTML label generic err' ctx = translated).
Proof.
  intros Hplain translated props html.
  assert (Hany : forall e : JsError,
            structured_payload e = None ->
            translate renderToHTML label generic e ctx =
              (Returned html,
               {| session := session ctx; request_body := request_body ctx;
                  status := 500; explicitStatus := true;
                  body := Some (BodyHtml html) |})).
  { intros e He. unfold translate. rewrite He.
    rewrite (renderBoomError_payload (generic_error label generic) _ _ ctx eq_refl eq_refl)
      by (unfold statusCode_or_500; simpl; lia).
    reflexivity. }
  subst translated. rewrite (Hany err Hplain). simpl.
  split; [reflexivity |]. split; [reflexivity |]. split; [lia |].
  split; [reflexivity |].
  intros err' Hplain'. now apply Hany.
Qed.

(** ** Session isolation *)

(** A request leaves the sessions of the other tokens as they are. *)
Lemma handle_other (store : gmap Token Session) (r : Request) (t : Token) :
  token r <> t ->
  snd (handle renderToHTML store r) !! t = store !! t.
Proof.
  intros Hne. unfold handle.
  destruct (router renderToHTML (clock r) (method r) (path r)); simpl.
  - now apply lookup_insert_ne.
  - reflexivity.
Qed.

Lemma handle_all_other (rs : list Request) (store : gmap Token Session) (t : Token) :
  Forall (fun r => token r <> t) rs ->
  handle_all renderToHTML store rs !! t = store !! t.
Proof.
  intros Hall. revert store.
  induction Hall as [| r rs Hr _ IH]; intros store; simpl.
  - reflexivity.
  - rewrite IH. now apply handle_other.
Qed.

(** What a request is answered, and the session it leaves, depend on the
    store only through the caller's own entry. *)
Lemma handle_local (store1 store2 : gmap Token Session) (r : Request) :
  store1 !! token r = store2 !! token r ->
  fst (handle renderToHTML store1 r) = fst (handle renderToHTML store2 r)
  /\ snd (handle renderToHTML store1 r) !! token r
     = snd (handle renderToHTML store2 r) !! token r.
Proof.
  intros Hsame. unfold handle, get_session. rewrite Hsame.
  destruct (router renderToHTML (clock r) (method r) (path r)); simpl.
  - split; [reflexivity |]. now rewrite !lookup_insert_eq.
  - now split.
Qed.

(** C8: whatever requests are served for other tokens, the session stored
    for token [t] is untouched, and every request carrying [t] is answered
    as it would have been without them and leaves the same session for [t]:
    comments appended through another session never show in this one. *)
Theorem sessions_isolated (store : gmap Token Session) (rs : list Request) (t : Token) :
  Forall (fun r => token r <> t) rs ->
  let store' := handle_all renderToHTML store rs in
  store' !! t = store !! t
  /\ forall r : Request,
       token r = t ->
       fst (handle renderToHTML store' r) = fst (handle renderToHTML store r)
       /\ snd (handle renderToHTML store' r) !! t = snd (handle renderToHTML store r) !! t.
Proof.
  intros Hall store'. subst store'.
  pose proof (handle_all_other rs store t Hall) as Hsame.
  split; [exact Hsame |].
  intros r Htok. subst t. now apply handle_local.
Qed.

End Properties.

(** ** The routes on concrete requests *)

Example post_hello_created :
  let posted := post_api_comments 5 (new_ctx empty_session {[ "comment" := JsString "hello" ]}) in
  fst posted = Returned tt
  /\ status (snd posted) = 201
  /\ session (snd posted) =
       {| comments := Some [ {| date := 5; comment := JsString "hello" |} ] |}.
Proof. vm_compute. repeat split; reflexivity. Qed.

Example post_without_comment_rejected :
  let posted := post_api_comments 5 (new_ctx empty_session ∅) in
  fst posted = Threw (Boom.badData "Empty comments not allowed")
  /\ session (snd posted) = {| comments := Some [] |}.
Proof. vm_compute. split; reflexivity. Qed.

Example post_zero_rejected :
  fst (post_api_comments 5
         (new_ctx empty_session {[ "comment" := JsNumber (S754_zero false) ]}))
  = Threw (Boom.badData "Empty comments not allowed").
Proof. reflexivity. Qed.

Example badData_rendered_as_client_error :
  let rendered :=
    renderBoomError path_page (Boom.badData "Empty comments not allowed")
      (new_ctx empty_session ∅) in
  fst rendered = Returned "/errors/400" /\ status (snd rendered) = 422.
Proof. vm_compute. split; reflexivity. Qed.

Example router_spellings :
  router path_page 0 POST "/api/comments/" = Some (post_api_comments 0)
  /\ router path_page 0 HEAD "/Comments" = Some (get_comments path_page)
  /\ router path_page 0 GET "/" = Some (get_home path_page)
  /\ router path_page 0 POST "/api/comments//" = None
  /\ router path_page 0 POST "/comments" = None
  /\ router path_page 0 OTHER "/api/comments" = None.
Proof. repeat split; reflexivity. Qed.

Example get_api_comments_new_session :
  let got := get_api_comments (new_ctx empty_session ∅) in
  status (snd got) = 200 /\ body (snd got) = Some (BodyComments []).
Proof. vm_compute. split; reflexivity. Qed.

(** C1, refuted as stated: on a new session the comment "   " is not
    rejected and the listed sequence does change. *)
Lemma blank_comment_not_rejected :
  let ctx := new_ctx empty_session {[ "comment" := JsString "   " ]} in
  ~ ((exists e, fst (post_api_comments 0 ctx) = Threw e /\ is_client_error e = true)
     /\ listed (snd (post_api_comments 0 ctx)) = listed ctx).
Proof.
  intros ctx [[e [Hthrew _]] _]. vm_compute in Hthrew. discriminate Hthrew.
Qed.


(** ** Instances *)

(** The comment "hello" posted to a new session. *)
Lemma append_then_list_ends_with_comment_witness :
  "hello" <> EmptyString
  /\ status (snd (post_api_comments 1000
                    (new_ctx empty_session (<["comment" := JsString "hello"]> ∅)))) = 201.
Proof.
  assert (Hne : "hello" <> EmptyString) by discriminate.
  split; [exact Hne |].
  pose proof (append_then_list_ends_with_comment 1000 empty_session ∅ ∅ "hello" Hne)
    as Hthm.
  cbv zeta in Hthm. destruct Hthm as (_ & Hstatus & _). exact Hstatus.
Defined.

(** The comments "a" then "b" posted to a new session. *)
Lemma append_preserves_order_witness :
  ToBoolean (JsString "a") = true
  /\ ToBoolean (JsString "b") = true
  /\ listed (snd (post_api_comments 1 (new_ctx empty_session (<["comment" := JsString "a"]> ∅))))
     = [ {| date := 1; comment := JsString "a" |} ].
Proof.
  split; [reflexivity |]. split; [reflexivity |].
  pose proof (append_preserves_order 1 2 empty_session ∅ ∅ ∅
                (JsString "a") (JsString "b") eq_refl eq_refl) as Hthm.
  cbv zeta in Hthm. destruct Hthm as (Hfirst & _). exact Hfirst.
Defined.

(** A POST with an empty body on a new session. *)
Lemma rejected_post_initialises_comments_witness :
  ToBoolean (body_field "comment" (new_ctx empty_session ∅)) = false
  /\ fst (post_api_comments 0 (new_ctx empty_session ∅))
     = Threw (Boom.badData "Empty comments not allowed").
Proof.
  split; [reflexivity |].
  pose proof (rejected_post_initialises_comments 0 (new_ctx empty_session ∅) eq_refl)
    as Hthm.
  cbv zeta in Hthm. destruct Hthm as (Hthrew & _). exact Hthrew.
Defined.

(** The error the POST route throws, rendered. *)
Lemma renderBoomError_structured_witness :
  output (Boom.badData "Empty comments not allowed")
    = Some {| payload := Some {| statusCode := Some 422;
                                 error := Some "Unprocessable Entity";
                                 message := Some "Empty comments not allowed" |} |}
  /\ 100 <= 422 <= 999
  /\ status (snd (renderBoomError path_page (Boom.badData "Empty comments not allowed")
                    (new_ctx empty_session ∅))) = 422.
Proof.
  assert (Hrange : 100 <= 422 <= 999) by (split; discriminate).
  split; [reflexivity |]. split; [exact Hrange |].
  pose proof (renderBoomError_structured path_page
                (Boom.badData "Empty comments not allowed") _ 422
                "Unprocessable Entity" "Empty comments not allowed"
                (new_ctx empty_session ∅) eq_refl eq_refl Hrange) as Hthm.
  cbv zeta in Hthm. destruct Hthm as (_ & Hstatus & _). exact Hstatus.
Defined.

(** A plain error, as a failed connection would throw it. *)
Lemma translate_unstructured_witness :
  let err := Error "connect ECONNREFUSED 127.0.0.1:5432" in
  structured_payload err = None
  /\ status (snd (translate path_page "Internal Server Error"
                    "An internal server error occurred" err
                    (new_ctx empty_session ∅))) = 500.
Proof.
  intros err. split; [reflexivity |].
  pose proof (translate_unstructured path_page "Internal Server Error"
                "An internal server error occurred" err
                (new_ctx empty_session ∅) eq_refl) as Hthm.
  cbv zeta in Hthm. destruct Hthm as (_ & Hstatus & _). exact Hstatus.
Defined.

(** A comment posted by one token, seen from another. *)
Lemma sessions_isolated_witness :
  let post := {| token := "alice"; method := POST; path := "/api/comments";
                 req_body := {[ "comment" := JsString "hi" ]}; clock := 1 |} in
  Forall (fun r => token r <> "bob") [post]
  /\ handle_all path_page ∅ [post] !! "bob" = (∅ : gmap Token Session) !! "bob".
Proof.
  intros post.
  assert (Hall : Forall (fun r => token r <> "bob") [post]).
  { constructor; [discriminate | constructor]. }
  split; [exact Hall |].
  pose proof (sessions_isolated path_page ∅ [post] "bob" Hall) as Hthm.
  cbv zeta in Hthm. destruct Hthm as (Hsame & _). exact Hsame.
Defined.


(** * Further properties of the routes *)

Section RouteProperties.

Variable renderToHTML :
  string -> gmap string PropValue -> option RenderOptions -> Html.

Lemma get_home_eq (ctx : Ctx) :
  get_home renderToHTML ctx =
    (Returned tt,
     {| session := session ctx; request_body := request_body ctx;
        status := if explicitStatus ctx then status ctx else 200;
        explicitStatus := true;
        body := Some (BodyHtml (renderToHTML "/Home" ∅ None)) |}).
Proof. reflexivity. Qed.

Lemma get_comments_eq (ctx : Ctx) :
  get_comments renderToHTML ctx =
    (Returned tt,
     {| session := session ctx; request_body := request_body ctx;
        status := if explicitStatus ctx then status ctx else 200;
        explicitStatus := true;
        body := Some (BodyHtml (renderToHTML "/Comments"
                                  {[ "comments" := PropComments (listed ctx) ]} None)) |}).
Proof. reflexivity. Qed.

(** The handlers the route table can give out. *)
Lemma router_cases (now : Time) (m : Method) (path : string) (h : Action unit) :
  router renderToHTML now m path = Some h ->
  (m <> POST /\ (h = get_home renderToHTML \/ h = get_comments renderToHTML
                 \/ h = get_api_comments))
  \/ (m = POST /\ h = post_api_comments now).
Proof.
  unfold router. destruct m.
  - repeat case_match; intros [= <-]; left; split; auto; discriminate.
  - repeat case_match; intros [= <-]; left; split; auto; discriminate.
  - case_match; intros [= <-]; right; auto.
  - discriminate.
Qed.

(** What a route does to the listed sequence. *)
Lemma router_listed (now : Time) (m : Method) (path : string) (h : Action unit) (ctx : Ctx) :
  router renderToHTML now m path = Some h ->
  listed (snd (h ctx)) = listed ctx
  \/ (m = POST
      /\ ToBoolean (body_field "comment" ctx) = true
      /\ listed (snd (h ctx)) =
           (listed ctx ++ [ {| date := now; comment := body_field "comment" ctx |} ])%list).
Proof.
  intros Hroute.
  destruct (router_cases now m path h Hroute)
    as [[_ [-> | [-> | ->]]] | (-> & ->)].
  - left. now rewrite get_home_eq.
  - left. now rewrite get_comments_eq.
  - left. now rewrite get_api_comments_eq.
  - destruct (ToBoolean (body_field "comment" ctx)) eqn:Htruthy.
    + right. rewrite post_api_comments_truthy by assumption. auto.
    + left. now rewrite post_api_comments_falsy by assumption.
Qed.

(** X1: the POST route returns exactly when the [comment] value is truthy
    and throws the Boom error exactly when it is falsy; it throws nothing
    else, the [push] cannot fail.  The value need not be text: an array is
    truthy even when empty and is stored as the comment. *)
Theorem post_accepted_iff_truthy (now : Time) (ctx : Ctx) :
  let posted := post_api_comments now ctx in
  (fst posted = Returned tt <-> ToBoolean (body_field "comment" ctx) = true)
  /\ (fst posted = Threw (Boom.badData "Empty comments not allowed")
      <-> ToBoolean (body_field "comment" ctx) = false)
  /\ (forall e, fst posted = Threw e -> e = Boom.badData "Empty comments not allowed")
  /\ (forall items,
        body_field "comment" ctx = JsArray items ->
        fst posted = Returned tt
        /\ last (listed (snd posted)) = Some {| date := now; comment := JsArray items |}).
Proof.
  intros posted. subst posted.
  destruct (ToBoolean (body_field "comment" ctx)) eqn:Htruthy.
  - rewrite post_api_comments_truthy by assumption. simpl.
    split; [split; congruence |]. split; [split; congruence |].
    split; [intros e; congruence |].
    intros items Harr. split; [reflexivity |].
    unfold listed, comments_or_empty; simpl. rewrite last_snoc. now rewrite Harr.
  - rewrite post_api_comments_falsy by assumption. simpl.
    split; [split; congruence |]. split; [split; congruence |].
    split; [intros e; congruence |].
    intros items Harr. rewrite Harr in Htruthy. discriminate Htruthy.
Qed.

(** X2: whatever method and spelling of the path reach it, a handler of
    the route table either leaves the listed sequence as it is or, when it
    is the POST handler given a truthy [comment], returns and puts exactly
    the one new comment, dated by the clock, behind it.  No handler removes,
    rewrites or reorders a listed comment, and a request that is not a POST
    never changes the listing. *)
Theorem route_appends_at_most_one
    (now : Time) (m : Method) (path : string) (h : Action unit) (ctx : Ctx) :
  router renderToHTML now m path = Some h ->
  (listed (snd (h ctx)) = listed ctx
   \/ (m = POST
       /\ ToBoolean (body_field "comment" ctx) = true
       /\ fst (h ctx) = Returned tt
       /\ listed (snd (h ctx)) =
            (listed ctx ++ [ {| date := now; comment := body_field "comment" ctx |} ])%list))
  /\ listed ctx `prefix_of` listed (snd (h ctx))
  /\ (m <> POST -> listed (snd (h ctx)) = listed ctx).
Proof.
  intros Hroute.
  destruct (router_cases now m path h Hroute)
    as [[Hm [-> | [-> | ->]]] | (-> & ->)].
  - rewrite get_home_eq. simpl. repeat split; auto.
  - rewrite get_comments_eq. simpl. repeat split; auto.
  - rewrite get_api_comments_eq. simpl. repeat split; auto.
  - destruct (ToBoolean (body_field "comment" ctx)) eqn:Htruthy.
    + rewrite post_api_comments_truthy by assumption. unfold listed at 1 3 5; simpl.
      split; [right; auto |]. split; [now apply prefix_app_r | congruence].
    + rewrite post_api_comments_falsy by assumption. simpl.
      split; [left; reflexivity |]. split; [reflexivity | congruence].
Qed.

(** ** The stored comments over a run of requests *)

(** What one request does to the comments stored for a token. *)
Lemma handle_stored (store : gmap Token Session) (r : Request) (t : Token) :
  stored (snd (handle renderToHTML store r)) t = stored store t
  \/ (exists v,
        ToBoolean v = true
        /\ stored (snd (handle renderToHTML store r)) t =
             (stored store t ++ [ {| date := clock r; comment := v |} ])%list).
Proof.
  unfold stored, handle, get_session.
  destruct (router renderToHTML (clock r) (method r) (path r)) as [h |] eqn:Hroute;
    simpl; [| now left].
  destruct (decide (token r = t)) as [<- | Hne].
  - rewrite lookup_insert_eq. simpl.
    destruct (router_listed _ _ _ h
                (new_ctx (default empty_session (store !! token r)) (req_body r)) Hroute)
      as [Hsame | (_ & Htruthy & Happ)].
    + left. exact Hsame.
    + right. eexists. split; [exact Htruthy | exact Happ].
  - left. now rewrite lookup_insert_ne.
Qed.

Lemma handle_all_stored_invariant (P : list Comment -> Prop) (rs : list Request) :
  forall store : gmap Token Session,
  (forall store' r t, P (stored store' t) ->
     P (stored (snd (handle renderToHTML store' r)) t)) ->
  forall t, P (stored store t) -> P (stored (handle_all renderToHTML store rs) t).
Proof.
  induction rs as [| r rs IH]; intros store Hstep t Hstart; simpl.
  - exact Hstart.
  - apply IH; [exact Hstep |]. now apply Hstep.
Qed.

(** X3: stored comments are append-only.  Over any run of requests, of any
    tokens, methods and paths, the comments stored for a token at the start
    are still there at the end, unchanged and in the same order, in front
    of whatever was added. *)
Theorem stored_comments_append_only
    (store : gmap Token Session) (rs : list Request) (t : Token) :
  stored store t `prefix_of` stored (handle_all renderToHTML store rs) t.
Proof.
  apply (handle_all_stored_invariant (fun l => stored store t `prefix_of` l));
    [| reflexivity].
  intros store' r t' Hprefix.
  destruct (handle_stored store' r t') as [-> | (v & _ & ->)].
  - exact Hprefix.
  - now apply prefix_app_r.
Qed.

(** X4: starting from no sessions, no run of requests ever stores a comment
    whose value is falsy: no empty text, no [null], no zero. *)
Theorem stored_comments_truthy (rs : list Request) (t : Token) :
  Forall (fun c => ToBoolean (comment c) = true)
         (stored (handle_all renderToHTML ∅ rs) t).
Proof.
  apply (handle_all_stored_invariant (Forall (fun c => ToBoolean (comment c) = true))).
  - intros store' r t' Hall.
    destruct (handle_stored store' r t') as [-> | (v & Htruthy & ->)].
    + exact Hall.
    + apply Forall_app. split; [exact Hall |]. now repeat constructor.
  - unfold stored, get_session. rewrite lookup_empty. constructor.
Qed.

Lemma handle_dated_up_to (bound : Time) (store : gmap Token Session) (r : Request) :
  dated_up_to bound store ->
  bound <= clock r ->
  dated_up_to (clock r) (snd (handle renderToHTML store r)).
Proof.
  intros Hinv Hclock t. destruct (Hinv t) as [Hsorted Hbound].
  assert (Hbound' : Forall (fun c => date c <= clock r) (stored store t)).
  { eapply Forall_impl; [exact Hbound |]. simpl. intros c Hc. lia. }
  destruct (handle_stored store r t) as [-> | (v & _ & ->)].
  - split; assumption.
  - split.
    + apply StronglySorted_app_2.
      * intros a b Ha Hb. apply list_elem_of_singleton in Hb. subst b. simpl.
        rewrite Forall_forall in Hbound'. now apply Hbound'.
      * exact Hsorted.
      * repeat constructor.
    + apply Forall_app. split; [exact Hbound' |]. repeat constructor. simpl. lia.
Qed.

Lemma handle_all_dated_up_to (rs : list Request) :
  forall (bound : Time) (store : gmap Token Session),
  dated_up_to bound store ->
  clocks_from bound rs ->
  exists bound', dated_up_to bound' (handle_all renderToHTML store rs).
Proof.
  induction rs as [| r rs IH]; intros bound store Hinv Hclocks; simpl.
  - now exists bound.
  - destruct Hclocks as [Hle Hrest].
    apply (IH (clock r)); [| exact Hrest].
    now apply (handle_dated_up_to bound).
Qed.

(** X5: when the clock never goes back from one request to the next, the
    comments stored for a token are in date order, oldest first, however
    the requests of the tokens interleave. *)
Theorem stored_comments_in_date_order (bound : Time) (rs : list Request) (t : Token) :
  clocks_from bound rs ->
  in_date_order (stored (handle_all renderToHTML ∅ rs) t).
Proof.
  intros Hclocks.
  destruct (handle_all_dated_up_to rs bound ∅) as [bound' Hinv]; [| exact Hclocks |].
  - intros t'. unfold stored, get_session. rewrite lookup_empty. simpl.
    split; constructor.
  - apply Hinv.
Qed.

(** X6: [GET /api/comments] is idempotent.  A second listing answers the
    same body with the same status and leaves the session as the first one
    left it. *)
Theorem get_api_comments_idempotent (sess : Session) (b b' : gmap string JsValue) :
  let first := get_api_comments (new_ctx sess b) in
  let second := get_api_comments (new_ctx (session (snd first)) b') in
  fst second = Returned tt
  /\ body (snd second) = body (snd first)
  /\ status (snd second) = status (snd first)
  /\ session (snd second) = session (snd first).
Proof.
  intros first second. subst first second.
  rewrite !get_api_comments_eq. simpl. repeat split; reflexivity.
Qed.

(** ** The error renderer on any error *)

(** X7: with a renderer that returns its page, the error renderer never
    touches the session or the request body and throws only before it has
    written anything: exactly when the error has no [output], no payload, or
    a status outside 100..999, and then the context is as it was found.
    Otherwise it returns the page it also stored as the body, and that is
    the server-error page exactly when the status is 500 or more.  A
    renderer that rejects is outside this statement. *)
Theorem renderBoomError_all_or_nothing (err : JsError) (ctx : Ctx) :
  let rendered := renderBoomError renderToHTML err ctx in
  session (snd rendered) = session ctx
  /\ request_body (snd rendered) = request_body ctx
  /\ ((exists e,
         fst rendered = Threw e
         /\ snd rendered = ctx
         /\ (forall out p,
               output err = Some out -> payload out = Some p ->
               ~ (100 <= statusCode_or_500 p <= 999)))
      \/ (exists html out p,
            output err = Some out
            /\ payload out = Some p
            /\ fst rendered = Returned html
            /\ body (snd rendered) = Some (BodyHtml html)
            /\ status (snd rendered) = statusCode_or_500 p
            /\ 100 <= status (snd rendered) <= 999
            /\ html = renderToHTML
                        (if 500 <=? status (snd rendered)
                         then "/errors/500" else "/errors/400")
                        (error_props p) (Some {| staticMarkup := true |}))).
Proof.
  intros rendered. subst rendered.
  destruct (output err) as [out |] eqn:Hout;
    [destruct (payload out) as [p |] eqn:Hpay |].
  - destruct (decide (100 <= statusCode_or_500 p <= 999)) as [Hrange | Hrange].
    + rewrite (renderBoomError_payload renderToHTML err out p ctx Hout Hpay Hrange).
      simpl. split; [reflexivity |]. split; [reflexivity |]. right.
      exists (renderToHTML
                ("/" +:+ (if 500 <=? statusCode_or_500 p then "errors/500" else "errors/400"))
                (error_props p) (Some {| staticMarkup := true |})), out, p.
      repeat (split; [first [reflexivity | assumption | lia] |]).
      destruct (500 <=? statusCode_or_500 p); reflexivity.
    + unfold renderBoomError. rewrite Hout, Hpay.
      unfold mbind, Action_bind, set_status.
      destruct ((100 <=? statusCode_or_500 p) && (statusCode_or_500 p <=? 999)) eqn:Hcheck.
      * apply andb_prop in Hcheck. destruct Hcheck as [Hlo Hhi].
        apply Z.leb_le in Hlo. apply Z.leb_le in Hhi. lia.
      * simpl. split; [reflexivity |]. split; [reflexivity |]. left.
        eexists. split; [reflexivity |]. split; [reflexivity |].
        intros out' p' [= <-] Hp'. rewrite Hpay in Hp'. injection Hp' as <-. exact Hrange.
  - unfold renderBoomError. rewrite Hout, Hpay. simpl.
    split; [reflexivity |]. split; [reflexivity |]. left.
    eexists. split; [reflexivity |]. split; [reflexivity |].
    intros out' p' [= <-] Hp'. rewrite Hpay in Hp'. discriminate Hp'.
  - unfold renderBoomError. rewrite Hout. simpl.
    split; [reflexivity |]. split; [reflexivity |]. left.
    eexists. split; [reflexivity |]. split; [reflexivity |].
    intros out' p' Hout'. discriminate Hout'.
Qed.

(** X8: the error a rejected POST throws, rendered on the context the route
    left, gives status 422 and the client-error page with the props 422,
    "Unprocessable Entity" and "Empty comments not allowed"; the session
    still lists what it listed before the request. *)
Theorem rejected_post_rendered_as_client_error (now : Time) (ctx : Ctx) :
  ToBoolean (body_field "comment" ctx) = false ->
  let posted := post_api_comments now ctx in
  let props : gmap string PropValue :=
    {[ "statusCode" := PropNumber 422;
       "error" := PropString "Unprocessable Entity";
       "message" := PropString "Empty comments not allowed" ]} in
  let html := renderToHTML "/errors/400" props (Some {| staticMarkup := true |}) in
  exists e,
    fst posted = Threw e
    /\ fst (renderBoomError renderToHTML e (snd posted)) = Returned html
    /\ status (snd (renderBoomError renderToHTML e (snd posted))) = 422
    /\ body (snd (renderBoomError renderToHTML e (snd posted))) = Some (BodyHtml html)
    /\ listed (snd (renderBoomError renderToHTML e (snd posted))) = listed ctx.
Proof.
  intros Hfalsy posted props html. subst posted.
  rewrite post_api_comments_falsy by assumption.
  exists (Boom.badData "Empty comments not allowed"). cbn [fst snd].
  split; [reflexivity |].
  rewrite (renderBoomError_payload renderToHTML
             (Boom.badData "Empty comments not allowed") _ _ _ eq_refl eq_refl)
    by (unfold statusCode_or_500; simpl; lia).
  simpl. repeat split; reflexivity.
Qed.

End RouteProperties.

(** * The Comments page *)

Section ScreenProperties.

Import CommentsScreen.

Context {World : Type}.

Variable api_post : string -> gmap string JsValue -> World -> Outcome Data * World.
Variable api_get : string -> World -> Outcome Data * World.

(** [handleSubmit] by cases on the text and on what the two calls answer. *)
Lemma handleSubmit_eq (st : State) (w : World) :
  handleSubmit api_post api_get (st, w) =
    if String.eqb (text st) EmptyString then
      (Returned tt,
       ({| comments := comments st; text := text st; loading := false;
           error := Some (Error "Empty comment not allowed") |}, w))
    else
      match api_post "/api/comments" {[ "comment" := JsString (text st) ]} w with
      | (Threw e, w1) =>
        (Returned tt,
         ({| comments := comments st; text := text st; loading := false;
             error := Some e |}, w1))
      | (Returned _, w1) =>
        match api_get "/api/comments" w1 with
        | (Threw e, w2) =>
          (Returned tt,
           ({| comments := comments st; text := text st; loading := false;
               error := Some e |}, w2))
        | (Returned data, w2) =>
          (Returned tt,
           ({| comments := data; text := EmptyString; loading := false;
               error := None |}, w2))
        end
      end.
Proof.
  unfold handleSubmit, try_catch_finally, mbind, Handler_bind, mthrow, Handler_throw,
    setState, get_state, await.
  cbn [fst snd text comments loading error].
  destruct (String.eqb (text st) EmptyString); [reflexivity |].
  cbn [fst snd text comments loading error].
  destruct (api_post "/api/comments" {[ "comment" := JsString (text st) ]} w)
    as [[d1 | e1] w1]; cbn [fst snd text comments loading error]; [| reflexivity].
  destruct (api_get "/api/comments" w1) as [[data | e2] w2]; reflexivity.
Qed.

Lemma text_empty_eqb (s : string) : s <> EmptyString -> String.eqb s EmptyString = false.
Proof. intros Hs. now apply String.eqb_neq. Qed.

(** X9: a submit with no text never reaches the API.  The world behind it
    is left as it was, the list and the text are kept, the error shown is
    the page's own "Empty comment not allowed", and loading is off again. *)
Theorem handleSubmit_empty_text (st : State) (w : World) :
  text st = EmptyString ->
  handleSubmit api_post api_get (st, w) =
    (Returned tt,
     ({| comments := comments st; text := EmptyString; loading := false;
         error := Some (Error "Empty comment not allowed") |}, w)).
Proof.
  intros Hempty. rewrite handleSubmit_eq, Hempty. reflexivity.
Qed.


(** X11: when the POST is rejected the GET is never sent: the world is the
    one the POST left.  The list and the text are kept and the rejection is
    the error shown. *)
Theorem handleSubmit_post_rejected
    (st : State) (w w1 : World) (e : JsError) :
  text st <> EmptyString ->
  api_post "/api/comments" {[ "comment" := JsString (text st) ]} w = (Threw e, w1) ->
  handleSubmit api_post api_get (st, w) =
    (Returned tt,
     ({| comments := comments st; text := text st; loading := false;
         error := Some e |}, w1)).
Proof.
  intros Htext Hpost.
  rewrite handleSubmit_eq, (text_empty_eqb _ Htext), Hpost. reflexivity.
Qed.

(** X12: when the POST resolves and the GET after it is rejected, the world
    has taken the POST, yet the page shows the error, the old list and the
    text still in the field. *)
Theorem handleSubmit_get_rejected
    (st : State) (w w1 w2 : World) (posted : Data) (e : JsError) :
  text st <> EmptyString ->
  api_post "/api/comments" {[ "comment" := JsString (text st) ]} w = (Returned posted, w1) ->
  api_get "/api/comments" w1 = (Threw e, w2) ->
  handleSubmit api_post api_get (st, w) =
    (Returned tt,
     ({| comments := comments st; text := text st; loading := false;
         error := Some e |}, w2)).
Proof.
  intros Htext Hpost Hget.
  rewrite handleSubmit_eq, (text_empty_eqb _ Htext), Hpost, Hget. reflexivity.
Qed.


End ScreenProperties.

(** * The page against the routes *)

Section EndToEnd.

Variable renderToHTML :
  string -> gmap string PropValue -> option RenderOptions -> Html.
Variable now : Time.
Variable rejected : option JsError -> Ctx -> JsError.

(** The two paths the page calls, as the route table serves them. *)
Lemma router_post_api_comments :
  router renderToHTML now POST "/api/comments" = Some (post_api_comments now).
Proof. reflexivity. Qed.

Lemma router_get_api_comments :
  router renderToHTML now GET "/api/comments" = Some get_api_comments.
Proof. reflexivity. Qed.

(** The POST the page sends for a text that is not empty is accepted. *)
Lemma API_post_text (sess : Session) (t : string) :
  t <> EmptyString ->
  API_post renderToHTML now rejected "/api/comments" {[ "comment" := JsString t ]} sess =
    (Returned (Some (BodyComment {| date := now; comment := JsString t |})),
     {| comments :=
          Some (comments_or_empty sess ++ [ {| date := now; comment := JsString t |} ])%list |}).
Proof.
  intros Ht. unfold API_post, request. rewrite router_post_api_comments.
  rewrite post_api_comments_truthy.
  - unfold body_field, new_ctx, listed. cbn [request_body session status body fst snd].
    rewrite lookup_singleton_eq. reflexivity.
  - unfold body_field, new_ctx. cbn [request_body]. rewrite lookup_singleton_eq.
    now apply ToBoolean_string.
Qed.

(** The GET the page sends answers the session's list. *)
Lemma API_get_lists (sess : Session) :
  API_get renderToHTML now rejected "/api/comments" sess =
    (Returned (Some (BodyComments (comments_or_empty sess))),
     {| comments := Some (comments_or_empty sess) |}).
Proof.
  unfold API_get, request. rewrite router_get_api_comments.
  rewrite get_api_comments_eq. reflexivity.
Qed.


(** X15: with the API served by the routes, the page never gets the
    server's rejection.  The only error a submit can end with is the page's
    own guard on an empty text, and then the session was not touched; a
    submit ends without error exactly when the text was not empty. *)
Theorem submit_never_rejected_by_server (st : CommentsScreen.State) (sess : Session) :
  let submitted :=
    CommentsScreen.handleSubmit
      (API_post renderToHTML now rejected) (API_get renderToHTML now rejected)
      (st, sess) in
  (forall e,
     CommentsScreen.error (fst (snd submitted)) = Some e ->
     e = Error "Empty comment not allowed" /\ snd (snd submitted) = sess)
  /\ (CommentsScreen.error (fst (snd submitted)) = None
      <-> CommentsScreen.text st <> EmptyString).
Proof.
  intros submitted. subst submitted. rewrite handleSubmit_eq.
  destruct (String.eqb_spec (CommentsScreen.text st) EmptyString) as [Hempty | Htext].
  - cbn. split.
    + intros e [= <-]. now split.
    + split; [discriminate | contradiction].
  - rewrite (API_post_text sess _ Htext), API_get_lists. cbn. split.
    + intros e. discriminate.
    + now split.
Qed.

End EndToEnd.

(** * Instances of the further properties *)

(** An accepted POST on a new session, the path in another spelling. *)
Lemma route_appends_at_most_one_witness :
  router path_page 7 POST "/API/comments/" = Some (post_api_comments 7)
  /\ listed (new_ctx empty_session {[ "comment" := JsString "hi" ]})
     `prefix_of`
     listed (snd (post_api_comments 7
                    (new_ctx empty_session {[ "comment" := JsString "hi" ]}))).
Proof.
  split; [reflexivity |].
  pose proof (route_appends_at_most_one path_page 7 POST "/API/comments/"
                (post_api_comments 7)
                (new_ctx empty_session {[ "comment" := JsString "hi" ]}) eq_refl)
    as Hthm.
  destruct Hthm as (_ & Hprefix & _). exact Hprefix.
Defined.

(** Two comments posted by one token, a listing by another in between. *)
Lemma stored_comments_in_date_order_witness :
  let rs :=
    [ {| token := "alice"; method := POST; path := "/api/comments";
         req_body := {[ "comment" := JsString "first" ]}; clock := 1 |};
      {| token := "bob"; method := GET; path := "/api/comments";
         req_body := ∅; clock := 1 |};
      {| token := "alice"; method := POST; path := "/api/comments";
         req_body := {[ "comment" := JsString "second" ]}; clock := 3 |} ] in
  clocks_from 0 rs
  /\ in_date_order (stored (handle_all path_page ∅ rs) "alice").
Proof.
  intros rs.
  assert (Hclocks : clocks_from 0 rs).
  { simpl. repeat split; discriminate. }
  split; [exact Hclocks |].
  exact (stored_comments_in_date_order path_page 0 rs "alice" Hclocks).
Defined.

(** A POST with an empty body, then the error rendered. *)
Lemma rejected_post_rendered_as_client_error_witness :
  ToBoolean (body_field "comment" (new_ctx empty_session ∅)) = false
  /\ exists e,
       fst (post_api_comments 0 (new_ctx empty_session ∅)) = Threw e
       /\ status (snd (renderBoomError path_page e
                         (snd (post_api_comments 0 (new_ctx empty_session ∅))))) = 422.
Proof.
  split; [reflexivity |].
  pose proof (rejected_post_rendered_as_client_error path_page 0
                (new_ctx empty_session ∅) eq_refl) as Hthm.
  cbv zeta in Hthm. destruct Hthm as (e & Hthrew & _ & Hstatus & _).
  exists e. split; [exact Hthrew | exact Hstatus].
Defined.

(** A submit with an empty field, the API down. *)
Lemma handleSubmit_empty_text_witness :
  let st := {| CommentsScreen.comments := Some (BodyComments []);
               CommentsScreen.text := EmptyString;
               CommentsScreen.loading := false;
               CommentsScreen.error := None |} in
  let down_post := fun (_ : string) (_ : gmap string JsValue) (w : nat) =>
                     (Threw (Error "Network Error") : Outcome CommentsScreen.Data, S w) in
  let down_get := fun (_ : string) (w : nat) =>
                    (Threw (Error "Network Error") : Outcome CommentsScreen.Data, S w) in
  CommentsScreen.text st = EmptyString
  /\ snd (snd (CommentsScreen.handleSubmit down_post down_get (st, 0%nat))) = 0%nat.
Proof.
  intros st down_post down_get. split; [reflexivity |].
  rewrite (handleSubmit_empty_text down_post down_get st 0%nat eq_refl). reflexivity.
Defined.



(** A submit of "hello", the POST rejected. *)
Lemma handleSubmit_post_rejected_witness :
  let st := {| CommentsScreen.comments := Some (BodyComments []);
               CommentsScreen.text := "hello";
               CommentsScreen.loading := false;
               CommentsScreen.error := None |} in
  let down_post := fun (_ : string) (_ : gmap string JsValue) (w : nat) =>
                     (Threw (Error "Network Error") : Outcome CommentsScreen.Data, S w) in
  let ok_get := fun (_ : string) (w : nat) =>
                  (Returned (Some (BodyHtml "list")) : Outcome CommentsScreen.Data, S w) in
  CommentsScreen.text st <> EmptyString
  /\ snd (snd (CommentsScreen.handleSubmit down_post ok_get (st, 0%nat))) = 1%nat.
Proof.
  intros st down_post ok_get.
  assert (Htext : CommentsScreen.text st <> EmptyString) by discriminate.
  split; [exact Htext |].
  rewrite (handleSubmit_post_rejected down_post ok_get st 0%nat 1%nat
             (Error "Network Error") Htext eq_refl).
  reflexivity.
Defined.

(** A submit of "hello", the POST resolved and the GET rejected. *)
Lemma handleSubmit_get_rejected_witness :
  let st := {| CommentsScreen.comments := Some (BodyComments []);
               CommentsScreen.text := "hello";
               CommentsScreen.loading := false;
               CommentsScreen.error := None |} in
  let ok_post := fun (_ : string) (_ : gmap string JsValue) (w : nat) =>
                   (Returned None : Outcome CommentsScreen.Data, S w) in
  let down_get := fun (_ : string) (w : nat) =>
                    (Threw (Error "Network Error") : Outcome CommentsScreen.Data, S w) in
  CommentsScreen.text st <> EmptyString
  /\ CommentsScreen.text
       (fst (snd (CommentsScreen.handleSubmit ok_post down_get (st, 0%nat)))) = "hello".
Proof.
  intros st ok_post down_get.
  assert (Htext : CommentsScreen.text st <> EmptyString) by discriminate.
  split; [exact Htext |].
  rewrite (handleSubmit_get_rejected ok_post down_get st 0%nat 1%nat 2%nat None
             (Error "Network Error") Htext eq_refl eq_refl).
  reflexivity.
Defined.

